(** * http_request.c: a blocking HTTP GET that returns the response status code

    The translation unit has two functions: the libcurl write callback
    [write_data] and [http_get], which drives one libcurl "easy" transfer.
    [http_get] is stateful only through what it does to the outside world:
    the table of live easy handles, the two standard streams and the network.
    That world is an explicit state threaded through a small state monad.

    libcurl is an external library.  Its entry points are modelled after their
    documented contract, and everything the library or the network decides on
    its own during one call (whether a handle can be allocated, what the
    transfer yields, how an error code is worded) is collected in a
    [curl_env] over which every theorem quantifies. *)

From stdpp Require Import gmap strings list fin_maps.

Local Open Scope Z_scope.

(** ** C data *)

(** [size_t] on the LP64 data model: 64 bits, unsigned, arithmetic modulo
    [2^64]. *)
Definition SIZE_BITS : Z := 64.
Definition SIZE_MAX : Z := 2 ^ SIZE_BITS - 1.
Definition size_t_wrap (x : Z) : Z := x mod 2 ^ SIZE_BITS.
Definition in_size_t (x : Z) : Prop := 0 <= x <= SIZE_MAX.

(** [long]: the status code is only stored and returned, never computed with. *)
Definition long : Type := Z.

(** A [void *]: null, or the bytes it points to. *)
Inductive void_ptr : Type :=
| NULL
| Ptr (data : list Byte.byte).

(** [CURLcode] is a C enum; the enumerators below carry the values curl.h
    gives them. *)
Definition CURLcode : Type := Z.
Definition CURLE_OK : CURLcode := 0.
Definition CURLE_UNSUPPORTED_PROTOCOL : CURLcode := 1.
Definition CURLE_URL_MALFORMAT : CURLcode := 3.
Definition CURLE_COULDNT_RESOLVE_HOST : CURLcode := 6.
Definition CURLE_COULDNT_CONNECT : CURLcode := 7.
Definition CURLE_WRITE_ERROR : CURLcode := 23.
Definition CURLE_OPERATION_TIMEDOUT : CURLcode := 28.
Definition CURLE_SSL_CONNECT_ERROR : CURLcode := 35.
Definition CURLE_BAD_FUNCTION_ARGUMENT : CURLcode := 43.

(** The largest block libcurl hands to a write callback in one invocation
    (curl.h; the source never changes CURLOPT_BUFFERSIZE). *)
Definition CURL_MAX_WRITE_SIZE : Z := 16384.

(** ** The write callback (http_request.c, lines 5-7) *)

Definition write_callback : Type := void_ptr -> Z -> Z -> void_ptr -> Z.

(** [size_t write_data(void *buffer, size_t size, size_t nmemb, void *userp)]
    returns [size * nmemb], a [size_t] product. *)
Definition write_data : write_callback :=
  fun (buffer : void_ptr) (size nmemb : Z) (userp : void_ptr) =>
    size_t_wrap (size * nmemb).

(** ** The world [http_get] runs in *)

(** A [CURL *] that is not null. *)
Definition handle : Type := positive.

(** What one easy handle holds: the three options the source sets, and the
    response code of its last transfer. *)
Record easy : Type := mk_easy {
  opt_url : option string;
  opt_writefunction : option write_callback;
  opt_writedata : void_ptr;
  info_response_code : long
}.

(** A handle as [curl_easy_init] hands it out. *)
Definition fresh_easy : easy :=
  {| opt_url := None; opt_writefunction := None;
     opt_writedata := NULL; info_response_code := 0 |}.

Inductive curl_option : Type :=
| CURLOPT_URL (url : string)
| CURLOPT_WRITEFUNCTION (f : write_callback)
| CURLOPT_WRITEDATA (p : void_ptr).

Inductive CURLINFO : Type :=
| CURLINFO_RESPONSE_CODE.

(** The library calls a run makes, in order, with what they returned. *)
Inductive call : Type :=
| Call_init (r : option handle)
| Call_setopt (h : handle) (o : curl_option)
| Call_perform (h : handle) (url : option string) (delivered : Z) (res : CURLcode)
| Call_getinfo (h : handle) (code : long)
| Call_cleanup (h : handle).

Record world : Type := mk_world {
  handles : gmap positive easy;
  stdout : list Byte.byte;
  stderr : string;
  trace : list call
}.

(** What the network does with one request: the body blocks it delivers, in
    order, the response code the client has on record when the transfer ends
    (0 when no response line was received) and the transfer's own result. *)
Record transfer : Type := mk_transfer {
  xfer_response_code : long;
  xfer_chunks : list (list Byte.byte);
  xfer_final : CURLcode
}.

(** What is outside the program's control during one call. *)
Record curl_env : Type := mk_env {
  env_init_ok : bool;
  env_transfer : string -> transfer;
  env_strerror : CURLcode -> string
}.

(** ** State monad over the world *)

Definition M (A : Type) : Type := world -> A * world.

Definition ret {A : Type} (a : A) : M A := fun w => (a, w).

Definition bind {A B : Type} (m : M A) (k : A -> M B) : M B :=
  fun w => let (a, w') := m w in k a w'.

Declare Scope curl_scope.
Delimit Scope curl_scope with curl.
Notation "'let*' x ':=' m 'in' k" := (bind m (fun x => k))
  (at level 10, x name, m at level 100, k at level 200) : curl_scope.
Notation "m ;; k" := (bind m (fun _ => k))
  (at level 100, k at level 200, right associativity) : curl_scope.

Definition set_handles (hs : gmap positive easy) (w : world) : world :=
  {| handles := hs; stdout := stdout w; stderr := stderr w; trace := trace w |}.

Definition log_call (c : call) (w : world) : world :=
  {| handles := handles w; stdout := stdout w; stderr := stderr w;
     trace := (trace w ++ [c])%list |}.

Definition put_stdout (bs : list Byte.byte) (w : world) : world :=
  {| handles := handles w; stdout := (stdout w ++ bs)%list; stderr := stderr w;
     trace := trace w |}.

Definition put_stderr (s : string) (w : world) : world :=
  {| handles := handles w; stdout := stdout w; stderr := (stderr w +:+ s)%string;
     trace := trace w |}.

Definition put_handle (h : handle) (e : easy) (w : world) : world :=
  set_handles (<[h := e]> (handles w)) w.

(** ** libcurl and stdio, after their documented contract *)

(** [curl_easy_init]: a null pointer when no handle can be set up, otherwise
    a handle no live handle is equal to. *)
Definition curl_easy_init (env : curl_env) : M (option handle) := fun w =>
  if env_init_ok env then
    let h := fresh (dom (handles w)) in
    (Some h, log_call (Call_init (Some h)) (put_handle h fresh_easy w))
  else (None, log_call (Call_init None) w).

Definition set_option (o : curl_option) (e : easy) : easy :=
  match o with
  | CURLOPT_URL u =>
      {| opt_url := Some u; opt_writefunction := opt_writefunction e;
         opt_writedata := opt_writedata e;
         info_response_code := info_response_code e |}
  | CURLOPT_WRITEFUNCTION f =>
      {| opt_url := opt_url e; opt_writefunction := Some f;
         opt_writedata := opt_writedata e;
         info_response_code := info_response_code e |}
  | CURLOPT_WRITEDATA p =>
      {| opt_url := opt_url e; opt_writefunction := opt_writefunction e;
         opt_writedata := p; info_response_code := info_response_code e |}
  end.

(** [curl_easy_setopt], for the three options the source uses. *)
Definition curl_easy_setopt (curl : handle) (o : curl_option) : M CURLcode := fun w =>
  match handles w !! curl with
  | Some e => (CURLE_OK, log_call (Call_setopt curl o) (put_handle curl (set_option o e) w))
  | None => (CURLE_BAD_FUNCTION_ARGUMENT, w)
  end.

(** What delivering the body to the write callback comes to: the bytes the
    callback took, whether the transfer was aborted, and what reached the
    standard output. *)
Record delivery : Type := mk_delivery {
  taken : Z;
  aborted : bool;
  printed : list Byte.byte
}.

(** The body goes to the write callback block by block, as
    [cb(block, 1, length, userdata)].  A callback that returns anything but
    the length it was given aborts the transfer.  With no callback set the
    library writes the block to the standard output itself. *)
Fixpoint deliver (cb : option write_callback) (userp : void_ptr)
    (chunks : list (list Byte.byte)) : delivery :=
  match chunks with
  | [] => {| taken := 0; aborted := false; printed := [] |}
  | c :: rest =>
      let n := Z.of_nat (length c) in
      let '(ok, out) :=
        match cb with
        | Some f => (Z.eqb (f (Ptr c) 1 n userp) n, [])
        | None => (true, c)
        end in
      if ok then
        let d := deliver cb userp rest in
        {| taken := n + taken d; aborted := aborted d;
           printed := (out ++ printed d)%list |}
      else {| taken := 0; aborted := true; printed := [] |}
  end.

Definition set_response_code (code : long) (e : easy) : easy :=
  {| opt_url := opt_url e; opt_writefunction := opt_writefunction e;
     opt_writedata := opt_writedata e; info_response_code := code |}.

(** [curl_easy_perform]: one blocking transfer of the handle's URL.  A handle
    without a URL fails at once; an aborted delivery yields
    [CURLE_WRITE_ERROR]; otherwise the result is the transfer's own. *)
Definition curl_easy_perform (env : curl_env) (curl : handle) : M CURLcode := fun w =>
  match handles w !! curl with
  | None => (CURLE_BAD_FUNCTION_ARGUMENT, w)
  | Some e =>
      match opt_url e with
      | None =>
          (CURLE_URL_MALFORMAT,
           log_call (Call_perform curl None 0 CURLE_URL_MALFORMAT) w)
      | Some u =>
          let x := env_transfer env u in
          let d := deliver (opt_writefunction e) (opt_writedata e) (xfer_chunks x) in
          let res := if aborted d then CURLE_WRITE_ERROR else xfer_final x in
          (res,
           log_call (Call_perform curl (Some u) (taken d) res)
             (put_stdout (printed d)
                (put_handle curl (set_response_code (xfer_response_code x) e) w)))
      end
  end.

(** [curl_easy_getinfo(curl, CURLINFO_RESPONSE_CODE, &out)]: [out] is the
    value the pointed-to [long] had; the second component is the value it has
    afterwards. *)
Definition curl_easy_getinfo (curl : handle) (info : CURLINFO) (out : long)
    : M (CURLcode * long) := fun w =>
  match handles w !! curl with
  | Some e =>
      match info with
      | CURLINFO_RESPONSE_CODE =>
          ((CURLE_OK, info_response_code e),
           log_call (Call_getinfo curl (info_response_code e)) w)
      end
  | None => ((CURLE_BAD_FUNCTION_ARGUMENT, out), w)
  end.

Definition curl_easy_strerror (env : curl_env) (res : CURLcode) : string :=
  env_strerror env res.

Definition curl_easy_cleanup (curl : handle) : M unit := fun w =>
  (tt, log_call (Call_cleanup curl) (set_handles (delete curl (handles w)) w)).

Definition newline : string := String (Ascii.ascii_of_nat 10) EmptyString.

(** [fprintf(stderr, "curl_easy_perform() failed: %s\n", reason)]. *)
Definition fprintf_stderr_failed (reason : string) : M unit := fun w =>
  (tt, put_stderr ("curl_easy_perform() failed: " +:+ reason +:+ newline) w).

(** ** http_get (http_request.c, lines 9-30) *)

Local Open Scope curl_scope.

Definition http_get (env : curl_env) (url : string) : M long :=
  let http_code : long := 0 in
  let* curl := curl_easy_init env in
  match curl with
  | Some curl =>
      curl_easy_setopt curl (CURLOPT_URL url) ;;
      curl_easy_setopt curl (CURLOPT_WRITEFUNCTION write_data) ;;
      curl_easy_setopt curl (CURLOPT_WRITEDATA NULL) ;;
      let* res := curl_easy_perform env curl in
      let* http_code :=
        if negb (Z.eqb res CURLE_OK) then
          fprintf_stderr_failed (curl_easy_strerror env res) ;;
          ret http_code
        else
          let* r := curl_easy_getinfo curl CURLINFO_RESPONSE_CODE http_code in
          ret (snd r)
      in
      curl_easy_cleanup curl ;;
      ret http_code
  | None => ret http_code
  end.

(** A caller that invokes [http_get] once per entry, each invocation under
    its own circumstances. *)
Fixpoint http_get_all (calls : list (curl_env * string)) : M (list long) :=
  match calls with
  | [] => ret []
  | (env, url) :: rest =>
      let* c := http_get env url in
      let* cs := http_get_all rest in
      ret (c :: cs)
  end.

Local Close Scope curl_scope.


(** ** Observations on a run *)

(** The library calls one invocation of [http_get] adds to the trace. *)
Definition run_calls (env : curl_env) (url : string) (w : world) : list call :=
  drop (length (trace w)) (trace (snd (http_get env url w))).

Definition is_acquire (c : call) : bool :=
  match c with Call_init (Some _) => true | _ => false end.

Definition is_release (c : call) : bool :=
  match c with Call_cleanup _ => true | _ => false end.

Definition is_perform (c : call) : bool :=
  match c with Call_perform _ _ _ _ => true | _ => false end.

Definition acquisitions (cs : list call) : nat := length (filter is_acquire cs).
Definition releases (cs : list call) : nat := length (filter is_release cs).
Definition performs (cs : list call) : nat := length (filter is_perform cs).

Definition releases_handle (h : handle) (c : call) : bool :=
  match c with Call_cleanup h' => Pos.eqb h h' | _ => false end.

(** Every handle a call sequence acquires is cleaned up later in it. *)
Fixpoint all_released (cs : list call) : bool :=
  match cs with
  | [] => true
  | Call_init (Some h) :: rest => existsb (releases_handle h) rest && all_released rest
  | _ :: rest => all_released rest
  end.

(** Number of live easy handles. *)
Definition handle_count (w : world) : nat := size (handles w).

(** Number of newline characters, that is of completed lines, in a text. *)
Fixpoint lines (s : string) : nat :=
  match s with
  | EmptyString => 0%nat
  | String c rest =>
      ((if Ascii.eqb c (Ascii.ascii_of_nat 10) then 1 else 0) + lines rest)%nat
  end.

(** The body blocks respect the library's block size limit. *)
Definition body_ok (chunks : list (list Byte.byte)) : bool :=
  forallb (fun c => Z.of_nat (length c) <=? CURL_MAX_WRITE_SIZE) chunks.

Fixpoint body_length (chunks : list (list Byte.byte)) : Z :=
  match chunks with
  | [] => 0
  | c :: rest => Z.of_nat (length c) + body_length rest
  end.

(** The result [curl_easy_perform] has when [http_get] runs it: the handle
    then carries [url], [write_data] and a null user pointer. *)
Definition perform_result (env : curl_env) (url : string) : CURLcode :=
  let x := env_transfer env url in
  if aborted (deliver (Some write_data) NULL (xfer_chunks x))
  then CURLE_WRITE_ERROR else xfer_final x.

(** The calls of a run that obtained handle [h]. *)
Definition calls_with_handle (env : curl_env) (url : string) (h : handle) : list call :=
  let x := env_transfer env url in
  let d := deliver (Some write_data) NULL (xfer_chunks x) in
  let res := perform_result env url in
  [Call_init (Some h);
   Call_setopt h (CURLOPT_URL url);
   Call_setopt h (CURLOPT_WRITEFUNCTION write_data);
   Call_setopt h (CURLOPT_WRITEDATA NULL);
   Call_perform h (Some url) (taken d) res]
  ++ (if res =? CURLE_OK then [Call_getinfo h (xfer_response_code x)] else [])
  ++ [Call_cleanup h].

(** The line the failure branch prints for result [res]. *)
Definition diagnostic (env : curl_env) (res : CURLcode) : string :=
  "curl_easy_perform() failed: " +:+ curl_easy_strerror env res +:+ newline.

(** The request of a run fails when no handle could be set up for it or when
    [curl_easy_perform] reports anything but [CURLE_OK]. *)
Definition request_fails (env : curl_env) (url : string) : Prop :=
  env_init_ok env = false \/ perform_result env url <> CURLE_OK.

(** The same circumstances, with another response body. *)
Definition set_body (chunks : list (list Byte.byte)) (x : transfer) : transfer :=
  {| xfer_response_code := xfer_response_code x; xfer_chunks := chunks;
     xfer_final := xfer_final x |}.

Definition with_body (chunks : list (list Byte.byte)) (env : curl_env) : curl_env :=
  {| env_init_ok := env_init_ok env;
     env_transfer := fun u => set_body chunks (env_transfer env u);
     env_strerror := env_strerror env |}.

(** ** Sample circumstances *)

Definition idle : world :=
  {| handles := ∅; stdout := []; stderr := EmptyString; trace := [] |}.

(** A few of libcurl's messages. *)
Definition sample_strerror (res : CURLcode) : string :=
  if res =? CURLE_URL_MALFORMAT then "URL using bad/illegal format or missing URL"
  else if res =? CURLE_COULDNT_RESOLVE_HOST then "Couldn't resolve host name"
  else if res =? CURLE_COULDNT_CONNECT then "Couldn't connect to server"
  else if res =? CURLE_OPERATION_TIMEDOUT then "Timeout was reached"
  else if res =? CURLE_SSL_CONNECT_ERROR then "SSL connect error"
  else "Unknown error".

Definition sample_body : list (list Byte.byte) :=
  [[Byte.x4e; Byte.x6f; Byte.x74]; [Byte.x20; Byte.x66; Byte.x6f; Byte.x75; Byte.x6e; Byte.x64]].

(** A server that answers with [code] and [sample_body]. *)
Definition serving (code : long) : curl_env :=
  {| env_init_ok := true;
     env_transfer := fun _ =>
       {| xfer_response_code := code; xfer_chunks := sample_body;
          xfer_final := CURLE_OK |};
     env_strerror := sample_strerror |}.

(** A transfer that ends with error [res] before any response arrives. *)
Definition failing (res : CURLcode) : curl_env :=
  {| env_init_ok := true;
     env_transfer := fun _ =>
       {| xfer_response_code := 0; xfer_chunks := []; xfer_final := res |};
     env_strerror := sample_strerror |}.

(** No easy handle can be set up. *)
Definition no_handle : curl_env :=
  {| env_init_ok := false;
     env_transfer := fun _ =>
       {| xfer_response_code := 200; xfer_chunks := sample_body;
          xfer_final := CURLE_OK |};
     env_strerror := sample_strerror |}.

(** A transfer that completes without any response line, as for a
    [file://] URL. *)
Definition local_file : curl_env :=
  {| env_init_ok := true;
     env_transfer := fun _ =>
       {| xfer_response_code := 0; xfer_chunks := sample_body;
          xfer_final := CURLE_OK |};
     env_strerror := sample_strerror |}.

Example serving_404 : fst (http_get (serving 404) "http://localhost:8080/missing" idle) = 404.
Proof. reflexivity. Qed.

Example serving_204 : fst (http_get (serving 204) "http://127.0.0.1:49152/" idle) = 204.
Proof. reflexivity. Qed.

Example unresolvable :
  http_get (failing CURLE_COULDNT_RESOLVE_HOST) "http://example.invalid/" idle
  = (0, {| handles := ∅; stdout := [];
           stderr := "curl_easy_perform() failed: Couldn't resolve host name" +:+ newline;
           trace := [Call_init (Some 1%positive);
                     Call_setopt 1%positive (CURLOPT_URL "http://example.invalid/");
                     Call_setopt 1%positive (CURLOPT_WRITEFUNCTION write_data);
                     Call_setopt 1%positive (CURLOPT_WRITEDATA NULL);
                     Call_perform 1%positive (Some "http://example.invalid/"%string) 0
                       CURLE_COULDNT_RESOLVE_HOST;
                     Call_cleanup 1%positive] |}).
Proof. reflexivity. Qed.

Example serving_404_world :
  snd (http_get (serving 404) "http://localhost:8080/missing" idle)
  = {| handles := ∅; stdout := []; stderr := EmptyString;
       trace := [Call_init (Some 1%positive);
                 Call_setopt 1%positive (CURLOPT_URL "http://localhost:8080/missing");
                 Call_setopt 1%positive (CURLOPT_WRITEFUNCTION write_data);
                 Call_setopt 1%positive (CURLOPT_WRITEDATA NULL);
                 Call_perform 1%positive (Some "http://localhost:8080/missing"%string) 9 CURLE_OK;
                 Call_getinfo 1%positive 404;
                 Call_cleanup 1%positive] |}.
Proof. reflexivity. Qed.

(** ** Arithmetic of the callback *)

Lemma size_t_wrap_small (x : Z) : in_size_t x -> size_t_wrap x = x.
Proof.
  unfold in_size_t, size_t_wrap, SIZE_MAX. intros Hx.
  apply Z.mod_small. lia.
Qed.

Lemma write_data_ignores_pointers (b b' u u' : void_ptr) (size nmemb : Z) :
  write_data b size nmemb u = write_data b' size nmemb u'.
Proof. reflexivity. Qed.

Lemma write_data_block (b u : void_ptr) (n : Z) :
  in_size_t n -> write_data b 1 n u = n.
Proof.
  intros Hn. unfold write_data. rewrite Z.mul_1_l. now apply size_t_wrap_small.
Qed.

Lemma block_limit_in_size_t (c : list Byte.byte) :
  (Z.of_nat (length c) <=? CURL_MAX_WRITE_SIZE) = true -> in_size_t (Z.of_nat (length c)).
Proof.
  intros H. apply Z.leb_le in H. unfold in_size_t, SIZE_MAX, SIZE_BITS.
  unfold CURL_MAX_WRITE_SIZE in H. lia.
Qed.

(** ** Delivery of the body *)

Lemma deliver_callback_prints_nothing (f : write_callback) (u : void_ptr)
    (chunks : list (list Byte.byte)) :
  printed (deliver (Some f) u chunks) = [].
Proof.
  induction chunks as [|c rest IH]; simpl; [reflexivity|].
  destruct (f (Ptr c) 1 (Z.of_nat (length c)) u =? Z.of_nat (length c)); simpl; auto.
Qed.

Lemma deliver_write_data (u : void_ptr) (chunks : list (list Byte.byte)) :
  body_ok chunks = true ->
  deliver (Some write_data) u chunks
  = {| taken := body_length chunks; aborted := false; printed := [] |}.
Proof.
  induction chunks as [|c rest IH]; simpl; [reflexivity|].
  intros Hok. apply andb_prop in Hok as [Hc Hrest].
  rewrite (write_data_block _ _ _ (block_limit_in_size_t c Hc)), Z.eqb_refl.
  rewrite (IH Hrest). reflexivity.
Qed.

Lemma deliver_write_data_shape (u : void_ptr) (b1 b2 : list (list Byte.byte)) :
  map length b1 = map length b2 ->
  deliver (Some write_data) u b1 = deliver (Some write_data) u b2.
Proof.
  revert b2. induction b1 as [|c1 r1 IH]; intros [|c2 r2] Hlen; simpl in *;
    try discriminate; [reflexivity|].
  injection Hlen as Hc Hr.
  rewrite (write_data_ignores_pointers (Ptr c1) (Ptr c2) u u), Hc, (IH r2 Hr).
  reflexivity.
Qed.

Lemma perform_result_ok_body (env : curl_env) (url : string) :
  body_ok (xfer_chunks (env_transfer env url)) = true ->
  perform_result env url = xfer_final (env_transfer env url).
Proof.
  intros Hok. unfold perform_result. now rewrite (deliver_write_data NULL _ Hok).
Qed.

(** ** Text on the error stream *)

Lemma lines_app (s t : string) : lines (s +:+ t) = (lines s + lines t)%nat.
Proof.
  induction s as [|c s IH]; simpl; [reflexivity|]. rewrite IH. lia.
Qed.

(** ** Fields of an updated world *)

Lemma world_eq (w1 w2 : world) :
  handles w1 = handles w2 -> stdout w1 = stdout w2 ->
  stderr w1 = stderr w2 -> trace w1 = trace w2 -> w1 = w2.
Proof. destruct w1, w2. cbn. intros -> -> -> ->. reflexivity. Qed.

Lemma handles_log_call c w : handles (log_call c w) = handles w.
Proof. reflexivity. Qed.
Lemma handles_put_stdout bs w : handles (put_stdout bs w) = handles w.
Proof. reflexivity. Qed.
Lemma handles_put_stderr s w : handles (put_stderr s w) = handles w.
Proof. reflexivity. Qed.
Lemma handles_put_handle h e w : handles (put_handle h e w) = <[h := e]> (handles w).
Proof. reflexivity. Qed.
Lemma handles_set_handles hs w : handles (set_handles hs w) = hs.
Proof. reflexivity. Qed.

Lemma stdout_log_call c w : stdout (log_call c w) = stdout w.
Proof. reflexivity. Qed.
Lemma stdout_put_stdout bs w : stdout (put_stdout bs w) = stdout w ++ bs.
Proof. reflexivity. Qed.
Lemma stdout_put_stderr s w : stdout (put_stderr s w) = stdout w.
Proof. reflexivity. Qed.
Lemma stdout_put_handle h e w : stdout (put_handle h e w) = stdout w.
Proof. reflexivity. Qed.
Lemma stdout_set_handles hs w : stdout (set_handles hs w) = stdout w.
Proof. reflexivity. Qed.

Lemma stderr_log_call c w : stderr (log_call c w) = stderr w.
Proof. reflexivity. Qed.
Lemma stderr_put_stdout bs w : stderr (put_stdout bs w) = stderr w.
Proof. reflexivity. Qed.
Lemma stderr_put_stderr s w : stderr (put_stderr s w) = (stderr w +:+ s)%string.
Proof. reflexivity. Qed.
Lemma stderr_put_handle h e w : stderr (put_handle h e w) = stderr w.
Proof. reflexivity. Qed.
Lemma stderr_set_handles hs w : stderr (set_handles hs w) = stderr w.
Proof. reflexivity. Qed.

Lemma trace_log_call c w : trace (log_call c w) = trace w ++ [c].
Proof. reflexivity. Qed.
Lemma trace_put_stdout bs w : trace (put_stdout bs w) = trace w.
Proof. reflexivity. Qed.
Lemma trace_put_stderr s w : trace (put_stderr s w) = trace w.
Proof. reflexivity. Qed.
Lemma trace_put_handle h e w : trace (put_handle h e w) = trace w.
Proof. reflexivity. Qed.
Lemma trace_set_handles hs w : trace (set_handles hs w) = trace w.
Proof. reflexivity. Qed.

Create Rewrite HintDb world.
#[local] Hint Rewrite
  handles_log_call handles_put_stdout handles_put_stderr handles_put_handle
  handles_set_handles
  stdout_log_call stdout_put_stdout stdout_put_stderr stdout_put_handle
  stdout_set_handles
  stderr_log_call stderr_put_stdout stderr_put_stderr stderr_put_handle
  stderr_set_handles
  trace_log_call trace_put_stdout trace_put_stderr trace_put_handle
  trace_set_handles : world.

(** Splits an equation between worlds into one goal per field, each with the
    field read off the updates. *)
Ltac world_fields :=
  apply world_eq; cbn [handles stdout stderr trace]; autorewrite with world.

(** ** One library call at a time *)

Lemma curl_easy_setopt_live (h : handle) (o : curl_option) (e : easy) (w : world) :
  handles w !! h = Some e ->
  curl_easy_setopt h o w
  = (CURLE_OK, log_call (Call_setopt h o) (put_handle h (set_option o e) w)).
Proof. intros H. unfold curl_easy_setopt. now rewrite H. Qed.

Lemma curl_easy_perform_live (env : curl_env) (h : handle) (e : easy) (u : string)
    (w : world) :
  handles w !! h = Some e -> opt_url e = Some u ->
  curl_easy_perform env h w
  = let x := env_transfer env u in
    let d := deliver (opt_writefunction e) (opt_writedata e) (xfer_chunks x) in
    let res := if aborted d then CURLE_WRITE_ERROR else xfer_final x in
    (res, log_call (Call_perform h (Some u) (taken d) res)
            (put_stdout (printed d)
               (put_handle h (set_response_code (xfer_response_code x) e) w))).
Proof. intros H Hu. unfold curl_easy_perform. now rewrite H, Hu. Qed.

Lemma curl_easy_getinfo_live (h : handle) (e : easy) (out : long) (w : world) :
  handles w !! h = Some e ->
  curl_easy_getinfo h CURLINFO_RESPONSE_CODE out w
  = ((CURLE_OK, info_response_code e), log_call (Call_getinfo h (info_response_code e)) w).
Proof. intros H. unfold curl_easy_getinfo. now rewrite H. Qed.

Lemma fresh_handle_unused (w : world) : handles w !! fresh (dom (handles w)) = None.
Proof. apply not_elem_of_dom, is_fresh. Qed.

(** ** The two paths through [http_get] *)

Lemma http_get_no_handle (env : curl_env) (url : string) (w : world) :
  env_init_ok env = false ->
  http_get env url w = (0, log_call (Call_init None) w).
Proof.
  intros Hinit. unfold http_get, bind, curl_easy_init. now rewrite Hinit.
Qed.

Lemma http_get_with_handle (env : curl_env) (url : string) (w : world) :
  env_init_ok env = true ->
  http_get env url w
  = let res := perform_result env url in
    (if res =? CURLE_OK then xfer_response_code (env_transfer env url) else 0,
     {| handles := handles w;
        stdout := stdout w;
        stderr := if res =? CURLE_OK then stderr w
                  else (stderr w +:+ diagnostic env res)%string;
        trace := trace w ++ calls_with_handle env url (fresh (dom (handles w))) |}).
Proof.
  intros Hinit. unfold http_get, bind, curl_easy_init. rewrite Hinit.
  set (h := fresh (dom (handles w))).
  pose proof (fresh_handle_unused w) as Hfresh. fold h in Hfresh.
  rewrite (curl_easy_setopt_live h _ fresh_easy) by apply lookup_insert_eq.
  rewrite (curl_easy_setopt_live h _ _) by apply lookup_insert_eq.
  rewrite (curl_easy_setopt_live h _ _) by apply lookup_insert_eq.
  rewrite (curl_easy_perform_live env h _ url) by (apply lookup_insert_eq || reflexivity).
  cbv beta iota zeta. cbn [opt_writefunction opt_writedata set_option fresh_easy].
  change (if aborted (deliver (Some write_data) NULL (xfer_chunks (env_transfer env url)))
          then CURLE_WRITE_ERROR else xfer_final (env_transfer env url))
    with (perform_result env url).
  assert (Hhandles : forall e1 e2 e3 e4 e5 : easy,
    delete h (<[h:=e5]> (<[h:=e4]> (<[h:=e3]> (<[h:=e2]> (<[h:=e1]> (handles w))))))
    = handles w).
  { intros. rewrite !delete_insert_eq. now apply delete_id. }
  rewrite deliver_callback_prints_nothing.
  destruct (perform_result env url =? CURLE_OK) eqn:Hres; cbn [negb]; cbv beta iota.
  - rewrite (curl_easy_getinfo_live h _ 0) by apply lookup_insert_eq.
    unfold curl_easy_cleanup, ret, calls_with_handle. cbv zeta. rewrite Hres.
    cbn [snd info_response_code set_response_code]. f_equal.
    world_fields; [apply Hhandles | now rewrite app_nil_r | reflexivity
                  | now rewrite <- !app_assoc].
  - unfold fprintf_stderr_failed, curl_easy_cleanup, ret, calls_with_handle.
    cbv zeta. rewrite Hres. f_equal.
    world_fields; [apply Hhandles | now rewrite app_nil_r | reflexivity
                  | now rewrite <- !app_assoc].
Qed.

Lemma trace_extends (env : curl_env) (url : string) (w : world) :
  trace (snd (http_get env url w)) = trace w ++ run_calls env url w.
Proof.
  unfold run_calls. destruct (env_init_ok env) eqn:Hinit.
  - rewrite (http_get_with_handle env url w Hinit). cbn [snd trace].
    now rewrite drop_app_length.
  - rewrite (http_get_no_handle env url w Hinit). cbn [snd trace log_call].
    now rewrite drop_app_length.
Qed.

Lemma run_calls_cases (env : curl_env) (url : string) (w : world) :
  run_calls env url w
  = if env_init_ok env
    then calls_with_handle env url (fresh (dom (handles w)))
    else [Call_init None].
Proof.
  unfold run_calls. destruct (env_init_ok env) eqn:Hinit.
  - rewrite (http_get_with_handle env url w Hinit). cbn [snd trace].
    apply drop_app_length.
  - rewrite (http_get_no_handle env url w Hinit). cbn [snd trace log_call].
    apply drop_app_length.
Qed.

Lemma http_get_handles (env : curl_env) (url : string) (w : world) :
  handles (snd (http_get env url w)) = handles w.
Proof.
  destruct (env_init_ok env) eqn:Hinit.
  - now rewrite (http_get_with_handle env url w Hinit).
  - now rewrite (http_get_no_handle env url w Hinit).
Qed.

Lemma http_get_all_handles (calls : list (curl_env * string)) (w : world) :
  handles (snd (http_get_all calls w)) = handles w.
Proof.
  revert w. induction calls as [|[env url] rest IH]; intros w; [reflexivity|].
  cbn [http_get_all]. unfold bind.
  pose proof (http_get_handles env url w) as Hone.
  destruct (http_get env url w) as [c w1]. cbn [snd] in Hone.
  specialize (IH w1).
  destruct (http_get_all rest w1) as [cs w2]. cbn [snd] in IH.
  unfold ret. cbn [snd]. congruence.
Qed.

Lemma calls_with_handle_counts (env : curl_env) (url : string) (h : handle) :
  acquisitions (calls_with_handle env url h) = 1%nat
  /\ releases (calls_with_handle env url h) = 1%nat
  /\ performs (calls_with_handle env url h) = 1%nat
  /\ all_released (calls_with_handle env url h) = true.
Proof.
  unfold calls_with_handle. cbv zeta.
  destruct (perform_result env url =? CURLE_OK);
    cbn; rewrite Pos.eqb_refl; repeat split; reflexivity.
Qed.

(** Bodies of the same shape, whatever their bytes, give the same run. *)
Lemma http_get_same_shape (env : curl_env) (url : string) (w : world)
    (b1 b2 : list (list Byte.byte)) :
  map length b1 = map length b2 ->
  http_get (with_body b1 env) url w = http_get (with_body b2 env) url w.
Proof.
  intros Hshape.
  assert (Hres : perform_result (with_body b1 env) url
                 = perform_result (with_body b2 env) url).
  { unfold perform_result. cbn. now rewrite (deliver_write_data_shape NULL b1 b2 Hshape). }
  destruct (env_init_ok env) eqn:Hinit.
  - rewrite !http_get_with_handle by exact Hinit.
    unfold calls_with_handle, diagnostic, curl_easy_strerror. cbv zeta. rewrite Hres.
    cbn [with_body env_transfer env_strerror set_body xfer_response_code xfer_chunks].
    now rewrite (deliver_write_data_shape NULL b1 b2 Hshape).
  - now rewrite !http_get_no_handle by exact Hinit.
Qed.

(** ** The status code *)

(** C1.  When the handle is acquired and [curl_easy_perform] returns
    [CURLE_OK], [http_get] returns the response code the client has on record
    for that response: a server answering 404 yields 404. *)
Theorem http_get_returns_response_code (env : curl_env) (url : string) (w : world) :
  env_init_ok env = true ->
  perform_result env url = CURLE_OK ->
  fst (http_get env url w) = xfer_response_code (env_transfer env url).
Proof.
  intros Hinit Hres. rewrite (http_get_with_handle env url w Hinit).
  cbv zeta. cbn [fst]. now rewrite Hres.
Qed.

Lemma http_get_returns_response_code_witness :
  fst (http_get (serving 404) "http://localhost:8080/missing" idle) = 404.
Proof.
  exact (http_get_returns_response_code (serving 404) "http://localhost:8080/missing"
           idle eq_refl eq_refl).
Defined.

(** C2.  Whenever the request fails, whatever the cause, [http_get] returns
    0; any two failing calls return the same value, so the return value tells
    the caller nothing about the cause. *)
Theorem http_get_failure_returns_zero (env1 env2 : curl_env) (url1 url2 : string)
    (w1 w2 : world) :
  request_fails env1 url1 ->
  request_fails env2 url2 ->
  fst (http_get env1 url1 w1) = 0
  /\ fst (http_get env2 url2 w2) = fst (http_get env1 url1 w1).
Proof.
  assert (Hzero : forall env url w, request_fails env url -> fst (http_get env url w) = 0).
  { intros env url w Hfail. destruct (env_init_ok env) eqn:Hinit.
    - destruct Hfail as [Hno | Hres]; [congruence|].
      rewrite (http_get_with_handle env url w Hinit). cbv zeta. cbn [fst].
      apply Z.eqb_neq in Hres. now rewrite Hres.
    - now rewrite (http_get_no_handle env url w Hinit). }
  intros H1 H2. rewrite (Hzero env1 url1 w1 H1), (Hzero env2 url2 w2 H2). auto.
Qed.

Lemma http_get_failure_returns_zero_witness :
  fst (http_get (failing CURLE_COULDNT_RESOLVE_HOST) "http://example.invalid/" idle) = 0
  /\ fst (http_get (failing CURLE_SSL_CONNECT_ERROR) "https://expired.example/" idle)
     = fst (http_get (failing CURLE_COULDNT_RESOLVE_HOST) "http://example.invalid/" idle).
Proof.
  apply (http_get_failure_returns_zero
           (failing CURLE_COULDNT_RESOLVE_HOST) (failing CURLE_SSL_CONNECT_ERROR)
           "http://example.invalid/" "https://expired.example/" idle idle).
  - right. vm_compute. discriminate.
  - right. vm_compute. discriminate.
Defined.

(** ** The handle *)

(** C3.  A call acquires at most one easy handle, every handle it acquires is
    cleaned up later in the same call, on the success path and on the failure
    paths alike, and the table of live handles is afterwards what it was
    before; so any sequence of calls leaves the handle count at baseline. *)
Theorem http_get_releases_handle (env : curl_env) (url : string) (w : world)
    (calls : list (curl_env * string)) :
  (acquisitions (run_calls env url w) <= 1)%nat
  /\ releases (run_calls env url w) = acquisitions (run_calls env url w)
  /\ all_released (run_calls env url w) = true
  /\ handles (snd (http_get env url w)) = handles w
  /\ handle_count (snd (http_get env url w)) = handle_count w
  /\ handle_count (snd (http_get_all calls w)) = handle_count w.
Proof.
  assert (Hcalls : (acquisitions (run_calls env url w) <= 1)%nat
                   /\ releases (run_calls env url w) = acquisitions (run_calls env url w)
                   /\ all_released (run_calls env url w) = true).
  { rewrite run_calls_cases. destruct (env_init_ok env).
    - destruct (calls_with_handle_counts env url (fresh (dom (handles w))))
        as (Ha & Hr & _ & Hall).
      rewrite Ha, Hr, Hall. auto.
    - cbn. auto. }
  destruct Hcalls as (Ha & Hr & Hall).
  unfold handle_count. rewrite http_get_handles, http_get_all_handles. auto 7.
Qed.

(** ** The error stream *)

(** C4, as the code has it.  When the handle is acquired and
    [curl_easy_perform] fails, [http_get] returns 0 and appends to the error
    stream exactly the text "curl_easy_perform() failed: ", the library's
    message for the error code, and a newline: one line, the message being a
    single line. *)
Theorem http_get_failure_prints_one_line (env : curl_env) (url : string) (w : world) :
  env_init_ok env = true ->
  perform_result env url <> CURLE_OK ->
  lines (env_strerror env (perform_result env url)) = 0%nat ->
  fst (http_get env url w) = 0
  /\ stderr (snd (http_get env url w))
     = (stderr w +:+ "curl_easy_perform() failed: "
          +:+ env_strerror env (perform_result env url) +:+ newline)%string
  /\ lines (stderr (snd (http_get env url w))) = (lines (stderr w) + 1)%nat.
Proof.
  intros Hinit Hres Hone. rewrite (http_get_with_handle env url w Hinit).
  cbv zeta. cbn [fst snd stderr]. apply Z.eqb_neq in Hres. rewrite Hres.
  unfold diagnostic, curl_easy_strerror. repeat split.
  rewrite !lines_app, Hone. reflexivity.
Qed.

Lemma http_get_failure_prints_one_line_witness :
  fst (http_get (failing CURLE_COULDNT_RESOLVE_HOST) "http://example.invalid/" idle) = 0
  /\ stderr (snd (http_get (failing CURLE_COULDNT_RESOLVE_HOST)
                    "http://example.invalid/" idle))
     = (stderr idle +:+ "curl_easy_perform() failed: "
          +:+ "Couldn't resolve host name" +:+ newline)%string
  /\ lines (stderr (snd (http_get (failing CURLE_COULDNT_RESOLVE_HOST)
                           "http://example.invalid/" idle)))
     = (lines (stderr idle) + 1)%nat.
Proof.
  apply (http_get_failure_prints_one_line (failing CURLE_COULDNT_RESOLVE_HOST)
           "http://example.invalid/" idle).
  - reflexivity.
  - vm_compute. discriminate.
  - reflexivity.
Defined.

(** C4 as stated fails: with no handle to be had the call returns 0 and the
    error stream stays as it was, so no line has been written. *)
Lemma no_handle_no_diagnostic :
  fst (http_get no_handle "http://example.invalid/" idle) = 0
  /\ stderr (snd (http_get no_handle "http://example.invalid/" idle)) = stderr idle
  /\ lines (stderr (snd (http_get no_handle "http://example.invalid/" idle)))
     <> (lines (stderr idle) + 1)%nat.
Proof.
  repeat split. vm_compute. discriminate.
Qed.

(** C10.  When the request completes successfully the error stream is left
    as it was. *)
Theorem http_get_success_leaves_stderr (env : curl_env) (url : string) (w : world) :
  env_init_ok env = true ->
  perform_result env url = CURLE_OK ->
  stderr (snd (http_get env url w)) = stderr w.
Proof.
  intros Hinit Hres. rewrite (http_get_with_handle env url w Hinit).
  cbv zeta. cbn [snd stderr]. now rewrite Hres.
Qed.

Lemma http_get_success_leaves_stderr_witness :
  stderr (snd (http_get (serving 204) "http://127.0.0.1:49152/" idle)) = stderr idle.
Proof.
  exact (http_get_success_leaves_stderr (serving 204) "http://127.0.0.1:49152/"
           idle eq_refl eq_refl).
Defined.

(** C8.  When [curl_easy_init] yields no handle, [http_get] returns 0, no
    transfer is performed and nothing is written to the error stream: the only
    library call of the run is the failed [curl_easy_init]. *)
Theorem http_get_without_handle (env : curl_env) (url : string) (w : world) :
  env_init_ok env = false ->
  fst (http_get env url w) = 0
  /\ run_calls env url w = [Call_init None]
  /\ performs (run_calls env url w) = 0%nat
  /\ stderr (snd (http_get env url w)) = stderr w.
Proof.
  intros Hinit. rewrite run_calls_cases, Hinit.
  rewrite (http_get_no_handle env url w Hinit). auto.
Qed.

Lemma http_get_without_handle_witness :
  fst (http_get no_handle "http://localhost/" idle) = 0
  /\ run_calls no_handle "http://localhost/" idle = [Call_init None]
  /\ performs (run_calls no_handle "http://localhost/" idle) = 0%nat
  /\ stderr (snd (http_get no_handle "http://localhost/" idle)) = stderr idle.
Proof.
  exact (http_get_without_handle no_handle "http://localhost/" idle eq_refl).
Defined.

(** C9.  The value 0 is not reserved for failures: there is a run in which
    the handle is acquired, the transfer completes with [CURLE_OK] and the
    client has response code 0 on record, and [http_get] returns that 0 from
    the success branch, the one that asks [curl_easy_getinfo] for the code,
    without writing a diagnostic. *)
Theorem zero_on_success_path :
  exists (env : curl_env) (url : string) (w : world) (h : handle),
    env_init_ok env = true
    /\ perform_result env url = CURLE_OK
    /\ xfer_response_code (env_transfer env url) = 0
    /\ run_calls env url w
       = [Call_init (Some h);
          Call_setopt h (CURLOPT_URL url);
          Call_setopt h (CURLOPT_WRITEFUNCTION write_data);
          Call_setopt h (CURLOPT_WRITEDATA NULL);
          Call_perform h (Some url) (body_length (xfer_chunks (env_transfer env url)))
            CURLE_OK;
          Call_getinfo h 0;
          Call_cleanup h]
    /\ In (Call_getinfo h 0) (run_calls env url w)
    /\ fst (http_get env url w) = 0
    /\ stderr (snd (http_get env url w)) = stderr w.
Proof.
  exists local_file, "file:///etc/hostname"%string, idle, 1%positive.
  assert (Hrun : run_calls local_file "file:///etc/hostname" idle
                 = [Call_init (Some 1%positive);
                    Call_setopt 1%positive (CURLOPT_URL "file:///etc/hostname");
                    Call_setopt 1%positive (CURLOPT_WRITEFUNCTION write_data);
                    Call_setopt 1%positive (CURLOPT_WRITEDATA NULL);
                    Call_perform 1%positive (Some "file:///etc/hostname"%string) 9 CURLE_OK;
                    Call_getinfo 1%positive 0;
                    Call_cleanup 1%positive])
    by reflexivity.
  repeat split; try exact Hrun.
  rewrite Hrun. cbn [In]. auto 7.
Qed.

(** ** The response body *)

(** C5.  The callback's result does not depend on the buffer it is handed,
    and two runs that differ only in the body the server sends return the same
    value. *)
Theorem http_get_ignores_body (env : curl_env) (url : string) (w : world)
    (b1 b2 : list (list Byte.byte)) :
  body_ok b1 = true ->
  body_ok b2 = true ->
  (forall (buffer buffer' : void_ptr) (size nmemb : Z) (userp : void_ptr),
      write_data buffer size nmemb userp = write_data buffer' size nmemb userp)
  /\ fst (http_get (with_body b1 env) url w) = fst (http_get (with_body b2 env) url w).
Proof.
  intros Hb1 Hb2. split; [reflexivity|].
  assert (Hres : perform_result (with_body b1 env) url
                 = perform_result (with_body b2 env) url).
  { rewrite !perform_result_ok_body by assumption. reflexivity. }
  destruct (env_init_ok env) eqn:Hinit.
  - rewrite !http_get_with_handle by exact Hinit. cbv zeta. cbn [fst].
    rewrite Hres. reflexivity.
  - now rewrite !http_get_no_handle by exact Hinit.
Qed.

Lemma http_get_ignores_body_witness :
  (forall (buffer buffer' : void_ptr) (size nmemb : Z) (userp : void_ptr),
      write_data buffer size nmemb userp = write_data buffer' size nmemb userp)
  /\ fst (http_get (with_body sample_body (serving 200)) "http://localhost/" idle)
     = fst (http_get (with_body [[Byte.x00]; []; [Byte.xff; Byte.xfe]] (serving 200))
              "http://localhost/" idle).
Proof.
  apply (http_get_ignores_body (serving 200) "http://localhost/" idle
           sample_body [[Byte.x00]; []; [Byte.xff; Byte.xfe]]);
    reflexivity.
Defined.

(** C6, as the code has it.  Whenever the product [size * nmemb] fits in
    [size_t], [write_data] returns exactly that product; the transport layer
    calls it with [size = 1] and a block of at most [CURL_MAX_WRITE_SIZE]
    bytes, so every block is acknowledged in full, the transfer is never
    aborted by the callback and the whole body is taken (and nothing of it is
    kept). *)
Theorem write_data_acknowledges (buffer userp : void_ptr) (size nmemb : Z)
    (chunks : list (list Byte.byte)) :
  in_size_t size ->
  in_size_t nmemb ->
  size * nmemb <= SIZE_MAX ->
  body_ok chunks = true ->
  write_data buffer size nmemb userp = size * nmemb
  /\ deliver (Some write_data) userp chunks
     = {| taken := body_length chunks; aborted := false; printed := [] |}.
Proof.
  intros [Hs _] [Hn _] Hfit Hok. split.
  - unfold write_data. apply size_t_wrap_small. unfold in_size_t. split; [nia | exact Hfit].
  - now apply deliver_write_data.
Qed.

Lemma write_data_acknowledges_witness :
  write_data (Ptr [Byte.x4e; Byte.x6f; Byte.x74]) 1 3 NULL = 1 * 3
  /\ deliver (Some write_data) NULL sample_body
     = {| taken := body_length sample_body; aborted := false; printed := [] |}.
Proof.
  apply (write_data_acknowledges (Ptr [Byte.x4e; Byte.x6f; Byte.x74]) NULL 1 3 sample_body).
  - unfold in_size_t. vm_compute. split; discriminate.
  - unfold in_size_t. vm_compute. split; discriminate.
  - vm_compute. discriminate.
  - reflexivity.
Defined.

(** C6 as stated fails: both arguments are [size_t] values, their product is
    [2^64], and the [size_t] product the function returns is 0. *)
Lemma write_data_wraps :
  in_size_t (2 ^ 63) /\ in_size_t 2
  /\ write_data NULL (2 ^ 63) 2 NULL = 0
  /\ write_data NULL (2 ^ 63) 2 NULL <> 2 ^ 63 * 2.
Proof.
  unfold in_size_t. repeat split; vm_compute; discriminate.
Qed.

(** ** The request *)

(** C7.  A call runs [curl_easy_perform] once when it has a handle and not at
    all otherwise, so at most once: the calls of a run are the fixed sequence
    [calls_with_handle], in which the handle is cleaned up right after the
    transfer and its single follow-up call, and there is no second attempt. *)
Theorem http_get_single_attempt (env : curl_env) (url : string) (w : world) :
  (performs (run_calls env url w) <= 1)%nat
  /\ performs (run_calls env url w) = (if env_init_ok env then 1 else 0)%nat
  /\ run_calls env url w
     = if env_init_ok env
       then calls_with_handle env url (fresh (dom (handles w)))
       else [Call_init None].
Proof.
  rewrite run_calls_cases. destruct (env_init_ok env).
  - destruct (calls_with_handle_counts env url (fresh (dom (handles w))))
      as (_ & _ & Hp & _).
    rewrite Hp. auto.
  - cbn. auto.
Qed.

(** ** Further properties of the two functions *)

Lemma http_get_value (env : curl_env) (url : string) (w : world) :
  fst (http_get env url w)
  = if env_init_ok env && (perform_result env url =? CURLE_OK)
    then xfer_response_code (env_transfer env url) else 0.
Proof.
  destruct (env_init_ok env) eqn:Hinit.
  - rewrite (http_get_with_handle env url w Hinit). reflexivity.
  - rewrite (http_get_no_handle env url w Hinit). reflexivity.
Qed.

Lemma http_get_stderr (env : curl_env) (url : string) (w : world) :
  stderr (snd (http_get env url w))
  = if env_init_ok env && negb (perform_result env url =? CURLE_OK)
    then (stderr w +:+ diagnostic env (perform_result env url))%string
    else stderr w.
Proof.
  destruct (env_init_ok env) eqn:Hinit.
  - rewrite (http_get_with_handle env url w Hinit). cbv zeta. cbn [snd stderr andb].
    now destruct (perform_result env url =? CURLE_OK).
  - rewrite (http_get_no_handle env url w Hinit). reflexivity.
Qed.

Lemma append_length (s t : string) :
  String.length (s +:+ t) = (String.length s + String.length t)%nat.
Proof. induction s as [|c s IH]; simpl; [reflexivity | now f_equal]. Qed.

Lemma append_grows (s t : string) : t <> EmptyString -> (s +:+ t)%string <> s.
Proof.
  intros Ht Heq. apply (f_equal String.length) in Heq.
  rewrite append_length in Heq. destruct t; [congruence | cbn in Heq; lia].
Qed.

(** X1.  Nothing of the response body reaches the standard output: whatever
    the library and the network do, the standard output after a call is what
    it was before. *)
Theorem http_get_leaves_stdout (env : curl_env) (url : string) (w : world) :
  stdout (snd (http_get env url w)) = stdout w.
Proof.
  destruct (env_init_ok env) eqn:Hinit.
  - now rewrite (http_get_with_handle env url w Hinit).
  - now rewrite (http_get_no_handle env url w Hinit).
Qed.

(** X2.  A value other than 0 can be trusted: it is returned only when the
    handle was acquired and the transfer completed with [CURLE_OK], it is then
    the response code on record, and nothing was written to the error
    stream. *)
Theorem http_get_nonzero_is_status (env : curl_env) (url : string) (w : world) :
  fst (http_get env url w) <> 0 ->
  env_init_ok env = true
  /\ perform_result env url = CURLE_OK
  /\ fst (http_get env url w) = xfer_response_code (env_transfer env url)
  /\ stderr (snd (http_get env url w)) = stderr w.
Proof.
  rewrite http_get_value, http_get_stderr.
  destruct (env_init_ok env); cbn [andb]; [|congruence].
  destruct (perform_result env url =? CURLE_OK) eqn:Hres; cbn [negb]; [|congruence].
  intros _. apply Z.eqb_eq in Hres. auto.
Qed.

Lemma http_get_nonzero_is_status_witness :
  env_init_ok (serving 500) = true
  /\ perform_result (serving 500) "http://localhost/" = CURLE_OK
  /\ fst (http_get (serving 500) "http://localhost/" idle) = 500
  /\ stderr (snd (http_get (serving 500) "http://localhost/" idle)) = stderr idle.
Proof.
  apply (http_get_nonzero_is_status (serving 500) "http://localhost/" idle).
  vm_compute. discriminate.
Defined.

(** X3.  The returned value does not depend on the state the call starts
    in: not on the handles that are live, not on what the streams hold, not
    on the calls made before. *)
Theorem http_get_value_independent_of_world (env : curl_env) (url : string)
    (w w' : world) :
  fst (http_get env url w) = fst (http_get env url w').
Proof. now rewrite !http_get_value. Qed.

(** X5.  A diagnostic is written exactly when the handle was acquired and the
    transfer failed: the error stream differs after the call if and only if
    [curl_easy_init] gave a handle and [curl_easy_perform] returned something
    other than [CURLE_OK]. *)
Theorem http_get_stderr_changes_iff (env : curl_env) (url : string) (w : world) :
  stderr (snd (http_get env url w)) <> stderr w
  <-> env_init_ok env = true /\ perform_result env url <> CURLE_OK.
Proof.
  rewrite http_get_stderr.
  destruct (env_init_ok env); cbn [andb].
  - destruct (perform_result env url =? CURLE_OK) eqn:Hres; cbn [negb].
    + apply Z.eqb_eq in Hres. split; [congruence | intros [_ H]; contradiction].
    + apply Z.eqb_neq in Hres. split; [auto|]. intros _.
      apply append_grows. discriminate.
  - split; [congruence | intros [H _]; discriminate].
Qed.

(** X6.  On [size_t] arguments [write_data] returns the true product exactly
    when that product fits in [size_t]. *)
Theorem write_data_exact_iff_fits (buffer userp : void_ptr) (size nmemb : Z) :
  in_size_t size ->
  in_size_t nmemb ->
  write_data buffer size nmemb userp = size * nmemb <-> size * nmemb <= SIZE_MAX.
Proof.
  intros [Hs _] [Hn _]. unfold write_data, size_t_wrap. split.
  - intros Heq. rewrite <- Heq. unfold SIZE_MAX.
    pose proof (Z.mod_pos_bound (size * nmemb) (2 ^ SIZE_BITS)) as Hb.
    assert (0 < 2 ^ SIZE_BITS) by (vm_compute; reflexivity). lia.
  - intros Hfit. apply Z.mod_small. unfold SIZE_MAX in Hfit. nia.
Qed.

Lemma write_data_exact_iff_fits_witness :
  write_data NULL 4096 4 NULL = 4096 * 4 <-> 4096 * 4 <= SIZE_MAX.
Proof.
  apply (write_data_exact_iff_fits NULL NULL 4096 4);
    unfold in_size_t; vm_compute; split; discriminate.
Defined.

(** X7.  On [size_t] arguments the value [write_data] returns is again a
    [size_t] value and never exceeds the true product: the callback never
    acknowledges more bytes than it was handed. *)
Theorem write_data_never_over_acknowledges (buffer userp : void_ptr) (size nmemb : Z) :
  in_size_t size ->
  in_size_t nmemb ->
  in_size_t (write_data buffer size nmemb userp)
  /\ write_data buffer size nmemb userp <= size * nmemb.
Proof.
  intros [Hs _] [Hn _]. unfold write_data, size_t_wrap, in_size_t, SIZE_MAX.
  assert (Hpos : 0 < 2 ^ SIZE_BITS) by (vm_compute; reflexivity).
  pose proof (Z.mod_pos_bound (size * nmemb) (2 ^ SIZE_BITS) Hpos) as Hb.
  assert (Hprod : 0 <= size * nmemb) by nia.
  pose proof (Z.mod_le (size * nmemb) (2 ^ SIZE_BITS) Hprod Hpos). lia.
Qed.

Lemma write_data_never_over_acknowledges_witness :
  in_size_t (write_data NULL (2 ^ 63) 3 NULL)
  /\ write_data NULL (2 ^ 63) 3 NULL <= 2 ^ 63 * 3.
Proof.
  apply (write_data_never_over_acknowledges NULL NULL (2 ^ 63) 3);
    unfold in_size_t; vm_compute; split; discriminate.
Defined.

(** X8.  Calls made one after another do not influence each other's
    results: the values a sequence of calls returns are those each call
    returns when run alone, from any state. *)
Theorem http_get_all_values (calls : list (curl_env * string)) (w w' : world) :
  fst (http_get_all calls w)
  = map (fun c : curl_env * string => fst (http_get (fst c) (snd c) w')) calls.
Proof.
  revert w. induction calls as [|[env url] rest IH]; intros w; [reflexivity|].
  cbn [http_get_all map fst snd]. unfold bind.
  pose proof (http_get_value env url w) as Hone.
  destruct (http_get env url w) as [c w1]. cbn [fst] in Hone.
  specialize (IH w1).
  destruct (http_get_all rest w1) as [cs w2]. cbn [fst] in IH.
  unfold ret. cbn [fst]. rewrite Hone, IH, (http_get_value env url w'). reflexivity.
Qed.

(** X9.  The callback is never what makes a transfer fail.  With a handle
    and a body in blocks of at most [CURL_MAX_WRITE_SIZE] bytes, the single
    [curl_easy_perform] of the run takes the whole body and its result is the
    transport's own, on success and on failure alike. *)
Theorem http_get_takes_whole_body (env : curl_env) (url : string) (w : world) :
  env_init_ok env = true ->
  body_ok (xfer_chunks (env_transfer env url)) = true ->
  perform_result env url = xfer_final (env_transfer env url)
  /\ In (Call_perform (fresh (dom (handles w))) (Some url)
           (body_length (xfer_chunks (env_transfer env url)))
           (xfer_final (env_transfer env url)))
        (run_calls env url w).
Proof.
  intros Hinit Hok.
  assert (Hres : perform_result env url = xfer_final (env_transfer env url)).
  { unfold perform_result. now rewrite (deliver_write_data NULL _ Hok). }
  split; [exact Hres|].
  rewrite run_calls_cases, Hinit. unfold calls_with_handle. cbv zeta.
  rewrite Hres, (deliver_write_data NULL _ Hok). cbn [taken].
  apply in_or_app. left. cbn [In]. auto 6.
Qed.

Lemma http_get_takes_whole_body_witness :
  perform_result (serving 200) "http://localhost/"
  = xfer_final (env_transfer (serving 200) "http://localhost/")
  /\ In (Call_perform (fresh (dom (handles idle))) (Some "http://localhost/"%string)
           (body_length (xfer_chunks (env_transfer (serving 200) "http://localhost/")))
           (xfer_final (env_transfer (serving 200) "http://localhost/")))
        (run_calls (serving 200) "http://localhost/" idle).
Proof.
  apply (http_get_takes_whole_body (serving 200) "http://localhost/" idle); reflexivity.
Defined.
